(** * Theme controller (theme.js): a shallow embedding and its properties

    The script is one immediately-invoked function.  It looks up the toggle
    button and its icon, installs the theme chosen by [getPreferredTheme],
    registers a click listener and a media-query listener, and exports
    [window.themeManager].

    The host page is a record [Page]; every statement of the script is a
    computation in the monad [M], which threads the page and can complete
    abruptly (a JavaScript [TypeError]).  Each call of a mutating host API is
    also appended to the page's [effects] log, so that the order of the calls
    can be stated. *)

From stdpp Require Import base strings gmap list.

#[local] Set Warnings "-clear-no-such-hyp".

Open Scope string_scope.
Open Scope list_scope.

(** ** JavaScript values that the script inspects *)

Module Js.

(** What [window.onThemeChange] may hold. *)
Inductive value :=
| Undefined
| Null
| Boolean (b : bool)
| Str (s : string)
| Function (name : string)
| Object.

Definition typeof (v : value) : string :=
  match v with
  | Undefined => "undefined"
  | Null => "object"
  | Boolean _ => "boolean"
  | Str _ => "string"
  | Function _ => "function"
  | Object => "object"
  end.

(** Truthiness of the result of [localStorage.getItem]: [null] and the
    empty string are falsy, every other string is truthy. *)
Definition truthy (v : option string) : bool :=
  match v with
  | None => false
  | Some s => negb (String.eqb s "")
  end.

End Js.

(** ** The page *)

(** The closures the script registers as event listeners: [toggleTheme] on
    the button's clicks, and an arrow function on the media query's changes.
    Listeners of other scripts are not part of the model. *)
Inductive ClickListener := toggleThemeListener.
Inductive ChangeListener := systemChangeListener.

(** Calls of mutating host APIs, in the order they are made. *)
Inductive Effect :=
| ClassListAdd (c : string)
| ClassListRemove (c : string)
| SetTextContent (s : string)
| StorageSetItem (k v : string)
| CallOnThemeChange (args : list string)
| ConsoleWarn (msg : string)
| AddClickListener (l : ClickListener)
| AddChangeListener (l : ChangeListener)
| ExportThemeManager.

(** The element with id [themeToggle]: [icon] is the text content of its
    first descendant of class [theme-icon], if there is one. *)
Record Toggle := mkToggle {
  icon : option string;
  clickListeners : list ClickListener
}.

Record Page := mkPage {
  localStorage : gmap string string;
  classList : gset string;            (* document.body.classList *)
  themeToggle : option Toggle;        (* document.getElementById('themeToggle') *)
  prefersDark : bool;                 (* matchMedia('(prefers-color-scheme: dark)').matches *)
  changeListeners : list ChangeListener;  (* listeners of that media query *)
  onThemeChange : Js.value;           (* window.onThemeChange *)
  themeManager : bool;                (* is window.themeManager defined *)
  effects : list Effect
}.

Definition sun : string := "☀️".
Definition moon : string := "🌙".

(** ** Computations over the page *)

(** How a computation ends: normally with a value, or by throwing.  Both
    carry the page as the computation left it. *)
Inductive Completion (A : Type) :=
| Normal (a : A) (p : Page)
| Throw (err : string) (p : Page).
Arguments Normal {A} a p.
Arguments Throw {A} err p.

Definition M (A : Type) : Type := Page → Completion A.

#[global] Instance M_ret : MRet M := λ A a p, Normal a p.
#[global] Instance M_bind : MBind M := λ A B f m p,
  match m p with
  | Normal a p' => f a p'
  | Throw e p' => Throw e p'
  end.

(** The page a computation leaves behind, however it completes. *)
Definition page_of {A} (c : Completion A) : Page :=
  match c with Normal _ p => p | Throw _ p => p end.

Section Setters.
Implicit Types p : Page.

Definition log (e : Effect) p : Page :=
  mkPage (localStorage p) (classList p) (themeToggle p) (prefersDark p)
         (changeListeners p) (onThemeChange p) (themeManager p) (effects p ++ [e]).

Definition with_localStorage (f : gmap string string → gmap string string) p : Page :=
  mkPage (f (localStorage p)) (classList p) (themeToggle p) (prefersDark p)
         (changeListeners p) (onThemeChange p) (themeManager p) (effects p).

Definition with_classList (f : gset string → gset string) p : Page :=
  mkPage (localStorage p) (f (classList p)) (themeToggle p) (prefersDark p)
         (changeListeners p) (onThemeChange p) (themeManager p) (effects p).

Definition with_themeToggle (t : Toggle) p : Page :=
  mkPage (localStorage p) (classList p) (Some t) (prefersDark p)
         (changeListeners p) (onThemeChange p) (themeManager p) (effects p).

Definition with_prefersDark (b : bool) p : Page :=
  mkPage (localStorage p) (classList p) (themeToggle p) b
         (changeListeners p) (onThemeChange p) (themeManager p) (effects p).

Definition with_changeListeners
    (f : list ChangeListener → list ChangeListener) p : Page :=
  mkPage (localStorage p) (classList p) (themeToggle p) (prefersDark p)
         (f (changeListeners p)) (onThemeChange p) (themeManager p) (effects p).

Definition with_themeManager (b : bool) p : Page :=
  mkPage (localStorage p) (classList p) (themeToggle p) (prefersDark p)
         (changeListeners p) (onThemeChange p) b (effects p).
End Setters.

(** ** Host APIs used by the script *)

Module Host.

Definition TypeError : string := "TypeError".

(** [localStorage.getItem(k)]: [None] is JavaScript's [null]. *)
Definition getItem (k : string) : M (option string) :=
  λ p, Normal (localStorage p !! k) p.

(** [localStorage.setItem(k, v)] *)
Definition setItem (k v : string) : M unit :=
  λ p, Normal () (log (StorageSetItem k v) (with_localStorage (insert k v) p)).

(** [document.body.classList.add(c)] *)
Definition classList_add (c : string) : M unit :=
  λ p, Normal () (log (ClassListAdd c) (with_classList (λ s, s ∪ {[c]}) p)).

(** [document.body.classList.remove(c)] *)
Definition classList_remove (c : string) : M unit :=
  λ p, Normal () (log (ClassListRemove c) (with_classList (λ s, s ∖ {[c]}) p)).

(** [document.body.classList.contains(c)] *)
Definition classList_contains (c : string) : M bool :=
  λ p, Normal (bool_decide (c ∈ classList p)) p.

(** [window.matchMedia('(prefers-color-scheme: dark)').matches] *)
Definition matchMedia_matches : M bool :=
  λ p, Normal (prefersDark p) p.

(** [document.getElementById('themeToggle')] *)
Definition getElementById_themeToggle : M (option Toggle) :=
  λ p, Normal (themeToggle p) p.

(** [themeToggle.querySelector('.theme-icon')], on an element that was found.
    The result says whether the icon exists; its text lives in the page. *)
Definition querySelector_theme_icon (t : Toggle) : option string := icon t.

(** [themeIcon.textContent = s].  Assigning a property of [null] is a
    [TypeError]; the script only reaches this after its guard. *)
Definition set_textContent (s : string) : M unit :=
  λ p, match themeToggle p with
       | Some t =>
           match icon t with
           | Some _ =>
               Normal () (log (SetTextContent s)
                          (with_themeToggle (mkToggle (Some s) (clickListeners t)) p))
           | None => Throw TypeError p
           end
       | None => Throw TypeError p
       end.

(** [typeof window.onThemeChange] *)
Definition typeof_onThemeChange : M string :=
  λ p, Normal (Js.typeof (onThemeChange p)) p.

(** [window.onThemeChange(args)].  The body of the callback belongs to the
    hosting page: the call is recorded and taken to return normally, without
    touching the page.  A callback that throws is outside this model.
    Calling a non-function is a [TypeError]. *)
Definition call_onThemeChange (args : list string) : M unit :=
  λ p, match onThemeChange p with
       | Js.Function _ => Normal () (log (CallOnThemeChange args) p)
       | _ => Throw TypeError p
       end.

(** [console.warn(msg)] *)
Definition console_warn (msg : string) : M unit :=
  λ p, Normal () (log (ConsoleWarn msg) p).

(** [themeToggle.addEventListener('click', l)] *)
Definition addClickListener (l : ClickListener) : M unit :=
  λ p, match themeToggle p with
       | Some t =>
           Normal () (log (AddClickListener l)
                      (with_themeToggle (mkToggle (icon t) (clickListeners t ++ [l])) p))
       | None => Throw TypeError p
       end.

(** [window.matchMedia('(prefers-color-scheme: dark)').addEventListener('change', l)] *)
Definition addChangeListener (l : ChangeListener) : M unit :=
  λ p, Normal () (log (AddChangeListener l) (with_changeListeners (λ ls, ls ++ [l]) p)).

(** [window.themeManager = { getTheme, setTheme, toggleTheme }] *)
Definition export_themeManager : M unit :=
  λ p, Normal () (log ExportThemeManager (with_themeManager true p)).

End Host.

(** ** The script *)

Definition warning : string :=
  "Theme toggle button or icon not found. Make sure to include the required HTML elements.".

(** [getPreferredTheme()]: [if (savedTheme) return savedTheme;] returns the
    saved string when it is truthy; otherwise the media query decides. *)
Definition getPreferredTheme : M string :=
  savedTheme ← Host.getItem "theme";
  let fromSystem : M string :=
    matches ← Host.matchMedia_matches;
    mret (if matches : bool then "dark" else "light") in
  match savedTheme with
  | Some s => if Js.truthy savedTheme then mret s else fromSystem
  | None => fromSystem
  end.

(** [setTheme(theme)] *)
Definition setTheme (theme : string) : M unit :=
  (if String.eqb theme "dark"
   then Host.classList_add "dark-mode";; Host.set_textContent sun
   else Host.classList_remove "dark-mode";; Host.set_textContent moon);;
  Host.setItem "theme" theme;;
  ty ← Host.typeof_onThemeChange;
  if String.eqb ty "function"
  then Host.call_onThemeChange [theme]
  else mret ().

(** [toggleTheme()] *)
Definition toggleTheme : M unit :=
  dark ← Host.classList_contains "dark-mode";
  let currentTheme := if dark : bool then "dark" else "light" in
  let newTheme := if String.eqb currentTheme "dark" then "light" else "dark" in
  setTheme newTheme.

(** The media-query listener: [(e) => { if (!getItem('theme')) setTheme(...) }] *)
Definition systemChange (e_matches : bool) : M unit :=
  saved ← Host.getItem "theme";
  if negb (Js.truthy saved)
  then setTheme (if e_matches then "dark" else "light")
  else mret ().

(** [window.themeManager.getTheme()] *)
Definition getTheme : M string :=
  dark ← Host.classList_contains "dark-mode";
  mret (if dark : bool then "dark" else "light").

(** The whole immediately-invoked function: guard, initial theme, listeners,
    export. *)
Definition iife : M unit :=
  themeToggle ← Host.getElementById_themeToggle;
  let themeIcon :=
    match themeToggle with
    | Some t => Host.querySelector_theme_icon t
    | None => None
    end in
  match themeToggle, themeIcon with
  | Some _, Some _ =>
      (theme ← getPreferredTheme; setTheme theme);;
      Host.addClickListener toggleThemeListener;;
      Host.addChangeListener systemChangeListener;;
      Host.export_themeManager
  | _, _ => Host.console_warn warning
  end.

(** ** Events of the hosting page *)

Definition runClick (l : ClickListener) : M unit :=
  match l with toggleThemeListener => toggleTheme end.

Definition runChange (e_matches : bool) (l : ChangeListener) : M unit :=
  match l with systemChangeListener => systemChange e_matches end.

(** The listeners of an event target run in registration order. *)
Fixpoint dispatch {L : Type} (handler : L → M unit) (ls : list L) : M unit :=
  match ls with
  | [] => mret ()
  | l :: ls' => handler l;; dispatch handler ls'
  end.

(** What can happen to the page once the script has run.  The two manager
    calls are calls by other code of the page; when [window.themeManager] was
    not exported they fail in the caller with a [TypeError]. *)
Inductive Event :=
| Click                          (* a click on the toggle button *)
| SystemChange (matches : bool)  (* the media query changes to [matches] *)
| ManagerSetTheme (t : string)   (* window.themeManager.setTheme(t) *)
| ManagerToggleTheme.            (* window.themeManager.toggleTheme() *)

Definition step (ev : Event) : M unit :=
  match ev with
  | Click =>
      λ p, match themeToggle p with
           | Some t => dispatch runClick (clickListeners t) p
           | None => Normal () p
           end
  | SystemChange b =>
      λ p, dispatch (runChange b) (changeListeners p) (with_prefersDark b p)
  | ManagerSetTheme t =>
      λ p, if themeManager p then setTheme t p else Throw Host.TypeError p
  | ManagerToggleTheme =>
      λ p, if themeManager p then toggleTheme p else Throw Host.TypeError p
  end.

Fixpoint run (evs : list Event) : M unit :=
  match evs with
  | [] => mret ()
  | ev :: evs' => step ev;; run evs'
  end.

(** ** Observations *)

(** The two values of the specification's Theme, and their strings. *)
Inductive Theme := light | dark.

Definition theme_str (t : Theme) : string :=
  match t with light => "light" | dark => "dark" end.

Definition glyph (t : Theme) : string :=
  match t with light => moon | dark => sun end.

(** The document's dark-mode marker. *)
Definition marker (p : Page) : bool := bool_decide ("dark-mode" ∈ classList p).

(** The text of the icon, when there is one. *)
Definition iconText (p : Page) : option string := themeToggle p ≫= icon.

(** The persisted ['theme'] entry. *)
Definition stored (p : Page) : option string := localStorage p !! "theme".

(** Both elements the script needs are in the document.  Only on such a page
    does the script get past its guard and define [getPreferredTheme],
    [setTheme] and [toggleTheme], whose closures keep the icon element. *)
Definition ready (p : Page) : bool :=
  match themeToggle p with
  | Some t => match icon t with Some _ => true | None => false end
  | None => false
  end.

(** The callback invocations among some effects, with their arguments. *)
Fixpoint callbackCalls (es : list Effect) : list (list string) :=
  match es with
  | [] => []
  | CallOnThemeChange args :: es' => args :: callbackCalls es'
  | _ :: es' => callbackCalls es'
  end.

(** What a normal [setTheme theme] makes of a page whose toggle is [t]. *)
Definition themed (theme : string) (t : Toggle) (p : Page) : Page :=
  let isDark := String.eqb theme "dark" in
  mkPage (<["theme" := theme]> (localStorage p))
         (if isDark then classList p ∪ {["dark-mode"]} else classList p ∖ {["dark-mode"]})
         (Some (mkToggle (Some (if isDark then sun else moon)) (clickListeners t)))
         (prefersDark p) (changeListeners p) (onThemeChange p) (themeManager p)
         (effects p ++
            [ if isDark then ClassListAdd "dark-mode" else ClassListRemove "dark-mode";
              SetTextContent (if isDark then sun else moon);
              StorageSetItem "theme" theme ] ++
            (if String.eqb (Js.typeof (onThemeChange p)) "function"
             then [CallOnThemeChange [theme]] else [])).

(** ** Sample pages *)

(** A first visit: nothing stored, the required markup present, the icon
    showing the moon as in the usage note, the system preferring light. *)
Definition firstVisit : Page :=
  mkPage ∅ ∅ (Some (mkToggle (Some moon) [])) false [] Js.Undefined false [].

Definition firstVisitDark : Page := with_prefersDark true firstVisit.

(** A return visit after [window.themeManager.setTheme('blue')]. *)
Definition blueVisit : Page := with_localStorage (insert "theme" "blue") firstVisit.

(** A page without the toggle button, and one whose button has no icon. *)
Definition noToggle : Page :=
  mkPage ∅ ∅ None false [] Js.Undefined false [].

Definition noIcon : Page :=
  mkPage ∅ ∅ (Some (mkToggle None [])) false [] Js.Undefined false [].

(** A page whose host registered a redraw callback. *)
Definition withCallback : Page :=
  mkPage ∅ ∅ (Some (mkToggle (Some moon) [])) false [] (Js.Function "redraw") false [].

(** A first visit on a system that prefers dark, once the script has run. *)
Definition loadedDark : Page := page_of (iife firstVisitDark).

(** A first visit, then a click on the toggle, then
    [window.themeManager.setTheme('')]. *)
Definition afterEmptyString : Page :=
  page_of ((iife;; run [Click; ManagerSetTheme ""]) firstVisit).

(** ** Invariants of the running controller *)

(** The icon shows the glyph that belongs to the marker. *)
Definition synced (p : Page) : Prop :=
  iconText p = Some (if marker p then sun else moon).

(** A truthy string is stored under ['theme']: the media-query listener's
    guard is closed. *)
Definition governed (p : Page) : Prop := Js.truthy (stored p) = true.

(** The controller is installed: the elements are there, the icon agrees
    with the marker, the click listener is registered and
    [window.themeManager] is exported. *)
Definition running (p : Page) : Prop :=
  ready p = true ∧ synced p ∧ themeManager p = true ∧
  ∃ t, themeToggle p = Some t ∧ clickListeners t ≠ [].

(** Events that do not store the empty string. *)
Definition benign (ev : Event) : bool :=
  match ev with
  | ManagerSetTheme t => negb (String.eqb t "")
  | _ => true
  end.

(** The system's theme, as [getPreferredTheme] computes it. *)
Definition systemTheme (p : Page) : string :=
  if prefersDark p then "dark" else "light".

(** The theme [getPreferredTheme] resolves on a page. *)
Definition preferred (p : Page) : string :=
  match stored p with
  | Some s => if String.eqb s "" then systemTheme p else s
  | None => systemTheme p
  end.

(** The page after the three statements that follow the initial [setTheme]:
    the click listener, the media-query listener and the export. *)
Definition registered (q : Page) : Page :=
  match themeToggle q with
  | Some t =>
      log ExportThemeManager
        (with_themeManager true
           (log (AddChangeListener systemChangeListener)
              (with_changeListeners (λ ls, ls ++ [systemChangeListener])
                 (log (AddClickListener toggleThemeListener)
                    (with_themeToggle
                       (mkToggle (icon t) (clickListeners t ++ [toggleThemeListener]))
                       q)))))
  | None => q
  end.

(** The click listeners registered on the toggle button. *)
Definition registeredClicks (p : Page) : list ClickListener :=
  match themeToggle p with
  | Some t => clickListeners t
  | None => []
  end.

(** A page of a host that keeps its own classes and storage keys. *)
Definition busyPage : Page :=
  mkPage {["lang" := "en"]} {["wide"; "dark-mode"]} (Some (mkToggle (Some sun) []))
         true [] (Js.Function "redraw") false [].

(** The store says ['dark'] exactly when the marker is set. *)
Definition agrees (p : Page) : Prop := marker p = true ↔ stored p = Some "dark".

(** The host has a callback, and the last call it received carried the
    stored theme as its only argument. *)
Definition notified (p : Page) : Prop :=
  ∃ f s, onThemeChange p = Js.Function f ∧ stored p = Some s ∧
         last (callbackCalls (effects p)) = Some [s].

(** The theme [toggleTheme] computes on a page: the complement of the one
    the marker shows. *)
Definition complement (p : Page) : Theme := if marker p then light else dark.

(** ** Basic facts *)

(** Unfolds the monad and the host APIs, and nothing of the maps and sets. *)
Ltac run_script :=
  cbv beta iota zeta delta
    [mbind M_bind mret M_ret Host.getItem Host.setItem Host.classList_add
     Host.classList_remove Host.classList_contains Host.matchMedia_matches
     Host.getElementById_themeToggle Host.querySelector_theme_icon
     Host.set_textContent Host.typeof_onThemeChange Host.call_onThemeChange
     Host.console_warn Host.addClickListener Host.addChangeListener
     Host.export_themeManager log with_localStorage with_themeToggle
     with_classList with_prefersDark with_changeListeners with_themeManager
     localStorage classList themeToggle prefersDark changeListeners
     onThemeChange themeManager effects icon clickListeners].

Lemma ready_inv p :
  ready p = true → ∃ t txt, themeToggle p = Some t ∧ icon t = Some txt.
Proof.
  unfold ready. destruct (themeToggle p) as [t|]; [|done].
  destruct (icon t) as [txt|] eqn:E; [|done]. eauto.
Qed.

Lemma typeof_function v :
  String.eqb (Js.typeof v) "function" =
  match v with Js.Function _ => true | _ => false end.
Proof. destruct v; reflexivity. Qed.

Lemma setTheme_ready theme p t txt :
  themeToggle p = Some t → icon t = Some txt →
  setTheme theme p = Normal () (themed theme t p).
Proof.
  intros Ht Hi. destruct p as [st cl tg pd chl cb tm ef]. simpl in Ht. subst tg.
  destruct t as [ic ls]. simpl in Hi. subst ic.
  unfold setTheme, themed.
  destruct (String.eqb theme "dark"); run_script; rewrite !typeof_function;
    destruct cb; cbv beta iota; rewrite <- ?app_assoc; reflexivity.
Qed.

Lemma themed_stored theme t p : stored (themed theme t p) = Some theme.
Proof. unfold stored, themed. cbn [localStorage]. apply lookup_insert_eq. Qed.

Lemma themed_marker theme t p :
  marker (themed theme t p) = String.eqb theme "dark".
Proof.
  unfold marker, themed. cbn [classList].
  destruct (String.eqb theme "dark").
  - apply bool_decide_eq_true. set_solver.
  - apply bool_decide_eq_false. set_solver.
Qed.

Lemma themed_iconText theme t p :
  iconText (themed theme t p) =
  Some (if String.eqb theme "dark" then sun else moon).
Proof. reflexivity. Qed.

Lemma themed_ready theme t p : ready (themed theme t p) = true.
Proof. reflexivity. Qed.

Lemma themed_themeToggle theme t p :
  themeToggle (themed theme t p) =
  Some (mkToggle (Some (if String.eqb theme "dark" then sun else moon))
                 (clickListeners t)).
Proof. reflexivity. Qed.

Lemma getTheme_marker p :
  getTheme p = Normal (if marker p then "dark" else "light") p.
Proof. reflexivity. Qed.

Lemma theme_str_dark t : String.eqb (theme_str t) "dark" = true ↔ t = dark.
Proof. destruct t; simpl; split; congruence. Qed.

(** Applying a theme a second time changes neither the classes, nor the
    toggle, nor the store. *)
Lemma themed_twice theme t t' p :
  clickListeners t' = clickListeners t →
  let p1 := themed theme t p in
  let p2 := themed theme t' p1 in
  classList p2 = classList p1 ∧ themeToggle p2 = themeToggle p1 ∧
  localStorage p2 = localStorage p1.
Proof.
  intros Hl p1 p2. subst p1 p2. unfold themed. cbn [classList themeToggle localStorage].
  rewrite Hl. split; [|split; [reflexivity|]].
  - destruct (String.eqb theme "dark"); set_solver.
  - apply insert_insert_eq.
Qed.

(** ** [setTheme] *)

(** C2: for each of the two themes, [setTheme] completes normally and makes
    exactly these calls, in this order: the dark-mode class is added for dark
    and removed for light, the icon text is set to the sun for dark and the
    moon for light, the theme is stored under ['theme'], and the host
    callback, when it is a function, is called with the theme.  Afterwards
    the marker is set iff the theme is dark, the icon shows the theme's
    glyph, the stored value is the theme and [getTheme] returns it. *)
Theorem setTheme_applies (t : Theme) (p : Page) :
  ready p = true →
  ∃ p',
    setTheme (theme_str t) p = Normal () p' ∧
    effects p' =
      effects p ++
      [ match t with
        | dark => ClassListAdd "dark-mode"
        | light => ClassListRemove "dark-mode"
        end;
        SetTextContent (glyph t);
        StorageSetItem "theme" (theme_str t) ] ++
      match onThemeChange p with
      | Js.Function _ => [CallOnThemeChange [theme_str t]]
      | _ => []
      end ∧
    (marker p' = true ↔ t = dark) ∧
    iconText p' = Some (glyph t) ∧
    stored p' = Some (theme_str t) ∧
    getTheme p' = Normal (theme_str t) p'.
Proof.
  intros Hr. destruct (ready_inv p Hr) as (tg & txt & Ht & Hi).
  exists (themed (theme_str t) tg p).
  split; [exact (setTheme_ready _ _ _ _ Ht Hi)|].
  split.
  { unfold themed. cbn [effects]. rewrite typeof_function.
    destruct t, (onThemeChange p); reflexivity. }
  split; [rewrite themed_marker; apply theme_str_dark|].
  split; [rewrite themed_iconText; destruct t; reflexivity|].
  split; [apply themed_stored|].
  rewrite getTheme_marker, themed_marker. destruct t; reflexivity.
Qed.

Lemma setTheme_applies_witness :
  ready firstVisit = true ∧
  ∃ p', setTheme "dark" firstVisit = Normal () p' ∧ stored p' = Some "dark".
Proof.
  split; [reflexivity|].
  destruct (setTheme_applies dark firstVisit eq_refl) as (p' & H1 & _ & _ & _ & H5 & _).
  exists p'. split; assumption.
Defined.

(** C7: applying the same theme twice in a row leaves the marker class, the
    icon and the stored value as the first application left them. *)
Theorem setTheme_idempotent (t : Theme) (p : Page) :
  ready p = true →
  ∃ p1 p2,
    setTheme (theme_str t) p = Normal () p1 ∧
    setTheme (theme_str t) p1 = Normal () p2 ∧
    classList p2 = classList p1 ∧
    marker p2 = marker p1 ∧
    iconText p2 = iconText p1 ∧
    stored p2 = stored p1.
Proof.
  intros Hr. destruct (ready_inv p Hr) as (tg & txt & Ht & Hi).
  set (p1 := themed (theme_str t) tg p).
  destruct (ready_inv p1 (themed_ready _ _ _)) as (tg1 & txt1 & Ht1 & Hi1).
  exists p1, (themed (theme_str t) tg1 p1).
  split; [exact (setTheme_ready _ _ _ _ Ht Hi)|].
  split; [exact (setTheme_ready _ _ _ _ Ht1 Hi1)|].
  assert (Hl : clickListeners tg1 = clickListeners tg).
  { subst p1. rewrite themed_themeToggle in Ht1. by inversion Ht1. }
  destruct (themed_twice (theme_str t) tg tg1 p Hl) as (Hc & Hg & Hs).
  fold p1 in Hc, Hg, Hs.
  split; [exact Hc|]. split; [unfold marker; by rewrite Hc|].
  split; [unfold iconText; by rewrite Hg|]. unfold stored. by rewrite Hs.
Qed.

Lemma setTheme_idempotent_witness :
  ready firstVisit = true ∧
  ∃ p1 p2,
    setTheme "light" firstVisit = Normal () p1 ∧
    setTheme "light" p1 = Normal () p2 ∧
    stored p2 = stored p1.
Proof.
  split; [reflexivity|].
  destruct (setTheme_idempotent light firstVisit eq_refl)
    as (p1 & p2 & H1 & H2 & _ & _ & _ & H6).
  exists p1, p2. repeat split; assumption.
Defined.

(** C9: every [setTheme] call on a page with the required elements completes
    normally; when [window.onThemeChange] is a function the call invokes it
    exactly once, with the theme as its only argument, and when it is
    undefined the call invokes nothing. *)
Theorem setTheme_callback (theme : string) (p : Page) :
  ready p = true →
  ∃ p' new,
    setTheme theme p = Normal () p' ∧
    effects p' = effects p ++ new ∧
    (∀ f, onThemeChange p = Js.Function f → callbackCalls new = [[theme]]) ∧
    (onThemeChange p = Js.Undefined → callbackCalls new = []).
Proof.
  intros Hr. destruct (ready_inv p Hr) as (tg & txt & Ht & Hi).
  eexists (themed theme tg p), _.
  split; [exact (setTheme_ready _ _ _ _ Ht Hi)|].
  split; [reflexivity|].
  rewrite typeof_function.
  split; [intros f Hf | intros Hf]; rewrite Hf;
    destruct (String.eqb theme "dark"); reflexivity.
Qed.

Lemma setTheme_callback_witness :
  ready withCallback = true ∧
  ∃ p' new,
    setTheme "dark" withCallback = Normal () p' ∧
    effects p' = effects withCallback ++ new ∧
    callbackCalls new = [["dark"]].
Proof.
  split; [reflexivity|].
  destruct (setTheme_callback "dark" withCallback eq_refl)
    as (p' & new & H1 & H2 & H3 & _).
  exists p', new. repeat split; [assumption..|].
  exact (H3 "redraw" eq_refl).
Defined.

(** With a foreign value for [window.onThemeChange] (neither a function nor
    undefined) [setTheme] also completes normally and calls nothing. *)
Lemma setTheme_no_call theme p :
  ready p = true →
  (∀ f, onThemeChange p ≠ Js.Function f) →
  ∃ p', setTheme theme p = Normal () p' ∧
        callbackCalls (effects p') = callbackCalls (effects p).
Proof.
  intros Hr Hn. destruct (ready_inv p Hr) as (tg & txt & Ht & Hi).
  exists (themed theme tg p). split; [exact (setTheme_ready _ _ _ _ Ht Hi)|].
  unfold themed. cbn [effects]. rewrite typeof_function.
  assert (Hc : ∀ es es', callbackCalls (es ++ es') = callbackCalls es ++ callbackCalls es').
  { induction es as [|e es IH]; intros es'; [reflexivity|].
    destruct e; simpl; rewrite ?IH; reflexivity. }
  rewrite !Hc. destruct (onThemeChange p) eqn:E;
    try (destruct (String.eqb theme "dark"); simpl; by rewrite app_nil_r).
  by destruct (Hn name).
Qed.

(** ** [getPreferredTheme] *)

Lemma getPreferredTheme_run p :
  getPreferredTheme p = Normal (preferred p) p.
Proof.
  unfold getPreferredTheme, preferred, stored, systemTheme. run_script.
  destruct p as [st cl tg pd chl cb tm ef]. cbv beta iota.
  destruct (st !! "theme") as [s|]; [|reflexivity].
  unfold Js.truthy. destruct (String.eqb s ""); reflexivity.
Qed.

(** C3, as the code has it: [getPreferredTheme] is a pure read (the page,
    with its effects log, is returned unchanged).  It returns the stored
    ['theme'] string when one is present and not empty, whatever string that
    is; when nothing or the empty string is stored it returns dark iff the
    system prefers dark and light otherwise.  The result is one of the two
    themes whenever the stored value is absent, empty, or one of them. *)
Theorem getPreferredTheme_resolves (p : Page) :
  ∃ r,
    getPreferredTheme p = Normal r p ∧
    (∀ s, stored p = Some s → s ≠ "" → r = s) ∧
    (stored p = None ∨ stored p = Some "" →
     r = if prefersDark p then "dark" else "light") ∧
    (stored p = None ∨ stored p = Some "" ∨
     stored p = Some "light" ∨ stored p = Some "dark" →
     ∃ t : Theme, r = theme_str t).
Proof.
  eexists. split; [apply getPreferredTheme_run|].
  unfold preferred, systemTheme. split; [|split].
  - intros s Hs Hne. rewrite Hs.
    destruct (String.eqb_spec s ""); [done|reflexivity].
  - intros [-> | ->]; reflexivity.
  - intros [-> | [-> | [-> | ->]]]; try (destruct (prefersDark p));
      first [by exists dark | by exists light].
Qed.

(** C3 as stated fails: with ['blue'] stored, [getPreferredTheme] returns
    ['blue'], which is neither theme. *)
Lemma getPreferredTheme_returns_blue :
  stored blueVisit = Some "blue" ∧
  getPreferredTheme blueVisit = Normal "blue" blueVisit ∧
  "blue" ≠ theme_str light ∧ "blue" ≠ theme_str dark.
Proof.
  assert (Hs : stored blueVisit = Some "blue") by apply lookup_insert_eq.
  split; [exact Hs|]. split; [|split; discriminate].
  rewrite getPreferredTheme_run. unfold preferred. rewrite Hs. reflexivity.
Qed.

(** C10, as the code has it: for every string, [setTheme] completes normally
    and stores exactly that string; every string other than ['dark'] leaves
    the marker off and the moon on the icon, so [getTheme] answers ['light']
    while the stored value is the string; a later [getPreferredTheme] returns
    the string unchanged when it is not empty, and the system's theme when it
    is empty. *)
Theorem setTheme_any_string (theme : string) (p : Page) :
  ready p = true →
  ∃ p',
    setTheme theme p = Normal () p' ∧
    stored p' = Some theme ∧
    (theme ≠ "dark" →
     marker p' = false ∧ iconText p' = Some moon ∧
     getTheme p' = Normal "light" p') ∧
    (theme = "dark" →
     marker p' = true ∧ iconText p' = Some sun ∧
     getTheme p' = Normal "dark" p') ∧
    (theme ≠ "" → getPreferredTheme p' = Normal theme p') ∧
    (theme = "" →
     getPreferredTheme p' =
     Normal (if prefersDark p then "dark" else "light") p').
Proof.
  intros Hr. destruct (ready_inv p Hr) as (tg & txt & Ht & Hi).
  exists (themed theme tg p).
  split; [exact (setTheme_ready _ _ _ _ Ht Hi)|].
  split; [apply themed_stored|].
  rewrite getTheme_marker, getPreferredTheme_run. unfold preferred, systemTheme.
  rewrite themed_marker, themed_iconText, themed_stored.
  split; [|split; [|split]].
  - intros Hn. apply String.eqb_neq in Hn. by rewrite Hn.
  - intros ->. by rewrite String.eqb_refl.
  - intros Hn. apply String.eqb_neq in Hn. by rewrite Hn.
  - intros ->. reflexivity.
Qed.

Lemma setTheme_any_string_witness :
  ready firstVisit = true ∧
  ∃ p',
    setTheme "blue" firstVisit = Normal () p' ∧
    stored p' = Some "blue" ∧
    getTheme p' = Normal "light" p' ∧
    getPreferredTheme p' = Normal "blue" p'.
Proof.
  split; [reflexivity|].
  destruct (setTheme_any_string "blue" firstVisit eq_refl)
    as (p' & H1 & H2 & H3 & _ & H5 & _).
  exists p'. split; [exact H1|]. split; [exact H2|].
  split; [apply H3; discriminate | apply H5; discriminate].
Defined.

(** C10 as stated fails for the empty string: it is stored, yet a later
    [getPreferredTheme] returns ['light'], not the stored string. *)
Lemma setTheme_empty_string_not_returned :
  ∃ p',
    setTheme "" firstVisit = Normal () p' ∧
    stored p' = Some "" ∧
    getPreferredTheme p' = Normal "light" p' ∧
    "light" ≠ "".
Proof.
  exists (themed "" (mkToggle (Some moon) []) firstVisit).
  split; [exact (setTheme_ready "" firstVisit _ moon eq_refl eq_refl)|].
  split; [apply themed_stored|].
  split; [|discriminate].
  rewrite getPreferredTheme_run. unfold preferred. rewrite themed_stored.
  reflexivity.
Qed.

(** ** The guard of the script *)

(** C8: when the toggle button or its icon is missing, the script completes
    normally and its only action is the console warning: the classes, the
    store, the toggle, the listeners and [window.themeManager] are as they
    were, and the effects log gains the warning and nothing else. *)
Theorem iife_missing_elements (p : Page) :
  themeToggle p = None ∨ (∃ t, themeToggle p = Some t ∧ icon t = None) →
  ∃ p',
    iife p = Normal () p' ∧
    effects p' = effects p ++ [ConsoleWarn warning] ∧
    classList p' = classList p ∧
    localStorage p' = localStorage p ∧
    themeToggle p' = themeToggle p ∧
    changeListeners p' = changeListeners p ∧
    themeManager p' = themeManager p ∧
    prefersDark p' = prefersDark p ∧
    onThemeChange p' = onThemeChange p.
Proof.
  intros H. exists (log (ConsoleWarn warning) p).
  split; [|by repeat split].
  unfold iife, mbind, M_bind, Host.getElementById_themeToggle,
    Host.querySelector_theme_icon.
  destruct H as [-> | (t & -> & ->)]; reflexivity.
Qed.

Lemma iife_missing_elements_witness :
  (themeToggle noIcon = None ∨
   ∃ t, themeToggle noIcon = Some t ∧ icon t = None) ∧
  ∃ p', iife noIcon = Normal () p' ∧ effects p' = [ConsoleWarn warning] ∧
        classList p' = ∅ ∧ localStorage p' = ∅ ∧ themeManager p' = false.
Proof.
  assert (H : themeToggle noIcon = None ∨
              ∃ t, themeToggle noIcon = Some t ∧ icon t = None).
  { right. eexists. split; reflexivity. }
  split; [exact H|].
  destruct (iife_missing_elements noIcon H)
    as (p' & H1 & H2 & H3 & H4 & _ & _ & H7 & _).
  exists p'. repeat split; assumption.
Defined.

(** The same without the button itself. *)
Example iife_noToggle :
  iife noToggle = Normal () (log (ConsoleWarn warning) noToggle).
Proof. reflexivity. Qed.

(** ** The installed controller *)

Lemma toggleTheme_setTheme p :
  toggleTheme p = setTheme (if marker p then "light" else "dark") p.
Proof.
  unfold toggleTheme, mbind, M_bind, Host.classList_contains, marker.
  destruct (bool_decide _); reflexivity.
Qed.

Lemma systemChange_open b p :
  Js.truthy (stored p) = false →
  systemChange b p = setTheme (if b then "dark" else "light") p.
Proof.
  intros H. unfold systemChange, mbind, M_bind, Host.getItem.
  fold (stored p). rewrite H. reflexivity.
Qed.

Lemma systemChange_closed b p :
  governed p → systemChange b p = Normal () p.
Proof.
  intros H. unfold systemChange, mbind, M_bind, Host.getItem.
  fold (stored p). rewrite H. reflexivity.
Qed.

Lemma truthy_false v : Js.truthy v = false ↔ v = None ∨ v = Some "".
Proof.
  destruct v as [s|]; simpl; [|naive_solver].
  destruct (String.eqb_spec s ""); simpl; naive_solver.
Qed.

Lemma truthy_true v : Js.truthy v = true ↔ ∃ s, v = Some s ∧ s ≠ "".
Proof.
  destruct v as [s|]; simpl; [|naive_solver].
  destruct (String.eqb_spec s ""); simpl; naive_solver.
Qed.

Lemma themed_synced theme t p : synced (themed theme t p).
Proof.
  unfold synced. rewrite themed_marker, themed_iconText. reflexivity.
Qed.

Lemma themed_running theme t p :
  themeToggle p = Some t → running p → running (themed theme t p).
Proof.
  intros Ht (_ & _ & Hm & t' & Ht' & Hl).
  rewrite Ht in Ht'. inversion Ht'; subst t'.
  split; [reflexivity|]. split; [apply themed_synced|].
  split; [exact Hm|]. eexists. split; [reflexivity|exact Hl].
Qed.

Lemma setTheme_running theme p :
  running p →
  ∃ t, themeToggle p = Some t ∧
       setTheme theme p = Normal () (themed theme t p) ∧
       running (themed theme t p).
Proof.
  intros Hrun. destruct (ready_inv p (proj1 Hrun)) as (t & txt & Ht & Hi).
  exists t. split; [exact Ht|].
  split; [exact (setTheme_ready _ _ _ _ Ht Hi)|].
  by apply themed_running.
Qed.

Lemma themed_governed theme t p : theme ≠ "" → governed (themed theme t p).
Proof.
  intros Hne. unfold governed. rewrite themed_stored. apply truthy_true. eauto.
Qed.

Lemma toggleTheme_running p :
  running p →
  ∃ p', toggleTheme p = Normal () p' ∧ running p' ∧ governed p' ∧
        marker p' = negb (marker p).
Proof.
  intros Hrun. rewrite toggleTheme_setTheme.
  destruct (setTheme_running (if marker p then "light" else "dark") p Hrun)
    as (t & Ht & Hs & Hr).
  eexists. split; [exact Hs|]. split; [exact Hr|].
  split; [apply themed_governed; by destruct (marker p)|].
  rewrite themed_marker. by destruct (marker p).
Qed.

Lemma systemChange_running b p :
  running p →
  ∃ p', systemChange b p = Normal () p' ∧ running p' ∧ governed p'.
Proof.
  intros Hrun. destruct (Js.truthy (stored p)) eqn:E.
  - exists p. split; [by apply systemChange_closed|]. by split.
  - rewrite (systemChange_open _ _ E).
    destruct (setTheme_running (if b then "dark" else "light") p Hrun)
      as (t & Ht & Hs & Hr).
    eexists. split; [exact Hs|]. split; [exact Hr|].
    apply themed_governed. by destruct b.
Qed.

Lemma dispatch_running {L} (handler : L → M unit) (ls : list L) p :
  (∀ l q, running q →
          ∃ q', handler l q = Normal () q' ∧ running q' ∧ governed q') →
  running p →
  ∃ p', dispatch handler ls p = Normal () p' ∧ running p' ∧
        (governed p → governed p') ∧ (ls ≠ [] → governed p').
Proof.
  intros Hh. revert p. induction ls as [|l ls IH]; intros p Hrun.
  - exists p. split; [reflexivity|]. split; [exact Hrun|].
    split; [tauto | intros Hne; by destruct Hne].
  - destruct (Hh l p Hrun) as (q & Hq & Hrq & Hgq).
    destruct (IH q Hrq) as (p' & Hp' & Hrp' & Hg & _).
    exists p'. cbn [dispatch]. unfold mbind, M_bind. rewrite Hq.
    split; [exact Hp'|]. split; [exact Hrp'|]. split; intros _; by apply Hg.
Qed.

Lemma dispatch_closed b ls p :
  governed p → dispatch (runChange b) ls p = Normal () p.
Proof.
  intros Hg. induction ls as [|[] ls IH]; [reflexivity|].
  cbn [dispatch runChange]. unfold mbind, M_bind.
  rewrite (systemChange_closed b p Hg). exact IH.
Qed.

Lemma with_prefersDark_running b p : running p → running (with_prefersDark b p).
Proof. intros H. exact H. Qed.

Lemma step_running ev p :
  running p →
  ∃ p', step ev p = Normal () p' ∧ running p' ∧
        (benign ev = true → governed p → governed p') ∧
        (ev = Click → governed p').
Proof.
  intros Hrun. destruct ev as [|b|theme|]; cbn [step benign].
  - destruct Hrun as (Hr & Hs & Hm & t & Ht & Hl). rewrite Ht.
    assert (Hrun : running p) by (repeat split; eauto).
    destruct (dispatch_running runClick (clickListeners t) p) as (p' & H1 & H2 & H3 & H4);
      [intros [] q Hq; destruct (toggleTheme_running q Hq) as (q' & ? & ? & ? & _); eauto
      | exact Hrun |].
    exists p'. split; [exact H1|]. split; [exact H2|]. split; [intros _; exact H3|].
    intros _. by apply H4.
  - destruct (dispatch_running (runChange b) (changeListeners p) (with_prefersDark b p))
      as (p' & H1 & H2 & H3 & _);
      [intros [] q Hq; by apply systemChange_running
      | by apply with_prefersDark_running |].
    exists p'. split; [exact H1|]. split; [exact H2|]. split; [|discriminate].
    intros _ Hg. by apply H3.
  - destruct Hrun as (Hr & Hs & Hm & Hl). rewrite Hm.
    destruct (setTheme_running theme p) as (t & Ht & H1 & H2); [by repeat split|].
    eexists. split; [exact H1|]. split; [exact H2|]. split; [|discriminate].
    intros Hb _. apply themed_governed. intros ->. discriminate.
  - destruct Hrun as (Hr & Hs & Hm & Hl). rewrite Hm.
    destruct (toggleTheme_running p) as (p' & H1 & H2 & H3 & _); [by repeat split|].
    exists p'. split; [exact H1|]. split; [exact H2|]. split; [|discriminate].
    intros _ _. exact H3.
Qed.

Lemma run_running evs p :
  running p →
  ∃ p', run evs p = Normal () p' ∧ running p' ∧
        (forallb benign evs = true → governed p → governed p').
Proof.
  revert p. induction evs as [|ev evs IH]; intros p Hrun.
  - exists p. split; [reflexivity|]. split; [exact Hrun | tauto].
  - destruct (step_running ev p Hrun) as (q & Hq & Hrq & Hgq & _).
    destruct (IH q Hrq) as (p' & Hp' & Hrp' & Hg).
    exists p'. cbn [run]. unfold mbind, M_bind. rewrite Hq.
    split; [exact Hp'|]. split; [exact Hrp'|].
    cbn [forallb]. intros [Hb Hbs]%andb_true_iff Hgp. by apply Hg, Hgq.
Qed.

Lemma preferred_nonempty p : preferred p ≠ "".
Proof.
  unfold preferred, systemTheme. destruct (stored p) as [s|].
  - destruct (String.eqb_spec s ""); [by destruct (prefersDark p)|done].
  - by destruct (prefersDark p).
Qed.

Lemma iife_running p :
  ready p = true →
  ∃ p', iife p = Normal () p' ∧ running p' ∧ governed p' ∧
        stored p' = Some (preferred p) ∧
        marker p' = String.eqb (preferred p) "dark" ∧
        iconText p' = Some (if String.eqb (preferred p) "dark" then sun else moon).
Proof.
  intros Hr. destruct (ready_inv p Hr) as (t & txt & Ht & Hi).
  unfold iife, mbind, M_bind, Host.getElementById_themeToggle,
    Host.querySelector_theme_icon.
  rewrite Ht, Hi, getPreferredTheme_run, (setTheme_ready _ _ _ _ Ht Hi).
  eexists. split; [reflexivity|].
  split.
  { split; [reflexivity|]. split; [exact (themed_synced (preferred p) t p)|].
    split; [reflexivity|]. eexists. split; [reflexivity|].
    cbn [clickListeners]. by destruct (clickListeners t). }
  split; [exact (themed_governed _ t p (preferred_nonempty p))|].
  split; [exact (themed_stored _ t p)|].
  split; [exact (themed_marker _ t p)|reflexivity].
Qed.


(** Every page from which the script ran, followed by any events, hosts a
    running controller. *)
Lemma reachable_running p0 evs :
  ready p0 = true →
  ∃ p, (iife;; run evs) p0 = Normal () p ∧ running p ∧
       (forallb benign evs = true → governed p).
Proof.
  intros Hr. destruct (iife_running p0 Hr) as (q & Hq & Hrq & Hgq & _).
  destruct (run_running evs q Hrq) as (p & Hp & Hrp & Hg).
  exists p. unfold mbind, M_bind. rewrite Hq.
  split; [exact Hp|]. split; [exact Hrp|]. intros Hb. by apply Hg.
Qed.

(** ** [toggleTheme] *)

Lemma complement_str p :
  theme_str (complement p) = if marker p then "light" else "dark".
Proof. unfold complement. by destruct (marker p). Qed.

Lemma toggleTheme_themed p t txt :
  themeToggle p = Some t → icon t = Some txt →
  toggleTheme p = Normal () (themed (theme_str (complement p)) t p).
Proof.
  intros Ht Hi. rewrite toggleTheme_setTheme, <- complement_str.
  exact (setTheme_ready _ _ _ _ Ht Hi).
Qed.

Lemma themed_effects (c : Theme) t p :
  effects (themed (theme_str c) t p) =
  effects p ++
  [ match c with
    | dark => ClassListAdd "dark-mode"
    | light => ClassListRemove "dark-mode"
    end;
    SetTextContent (glyph c);
    StorageSetItem "theme" (theme_str c) ] ++
  match onThemeChange p with
  | Js.Function _ => [CallOnThemeChange [theme_str c]]
  | _ => []
  end.
Proof.
  unfold themed. cbn [effects]. rewrite typeof_function.
  destruct c, (onThemeChange p); reflexivity.
Qed.

Lemma themed_complement c t p :
  complement (themed (theme_str c) t p) =
  match c with light => dark | dark => light end.
Proof. unfold complement. rewrite themed_marker. by destruct c. Qed.

(** C6: in every state of the installed controller (the script has run on a
    page with the required elements, and any events have followed), two
    [toggleTheme] calls in succession complete normally.  Each call is
    [setTheme] of the complement of the theme the marker shows: it flips the
    marker, puts the complement's glyph on the icon, stores the complement
    and makes exactly the calls of that [setTheme] (class, icon text, store
    write, callback if it is a function).  After the second call the marker
    and the icon text are as they were before the first; the stored value is
    then the theme that was displayed. *)
Theorem toggleTheme_involution (p0 : Page) (evs : list Event) :
  ready p0 = true →
  ∃ p p1 p2,
    (iife;; run evs) p0 = Normal () p ∧
    toggleTheme p = Normal () p1 ∧
    toggleTheme p1 = Normal () p2 ∧
    marker p1 = negb (marker p) ∧
    marker p2 = marker p ∧
    iconText p2 = iconText p ∧
    toggleTheme p = setTheme (theme_str (complement p)) p ∧
    toggleTheme p1 = setTheme (theme_str (complement p1)) p1 ∧
    complement p1 = (if marker p then dark else light) ∧
    iconText p1 = Some (glyph (complement p)) ∧
    stored p1 = Some (theme_str (complement p)) ∧
    stored p2 = Some (theme_str (complement p1)) ∧
    effects p1 =
      effects p ++
      [ match complement p with
        | dark => ClassListAdd "dark-mode"
        | light => ClassListRemove "dark-mode"
        end;
        SetTextContent (glyph (complement p));
        StorageSetItem "theme" (theme_str (complement p)) ] ++
      match onThemeChange p with
      | Js.Function _ => [CallOnThemeChange [theme_str (complement p)]]
      | _ => []
      end ∧
    effects p2 =
      effects p1 ++
      [ match complement p1 with
        | dark => ClassListAdd "dark-mode"
        | light => ClassListRemove "dark-mode"
        end;
        SetTextContent (glyph (complement p1));
        StorageSetItem "theme" (theme_str (complement p1)) ] ++
      match onThemeChange p with
      | Js.Function _ => [CallOnThemeChange [theme_str (complement p1)]]
      | _ => []
      end.
Proof.
  intros Hr. destruct (reachable_running p0 evs Hr) as (p & Hp & Hrun & _).
  destruct (ready_inv p (proj1 Hrun)) as (t & txt & Ht & Hi).
  set (p1 := themed (theme_str (complement p)) t p).
  assert (Hrun1 : running p1) by (by apply themed_running).
  destruct (ready_inv p1 (proj1 Hrun1)) as (t1 & txt1 & Ht1 & Hi1).
  set (p2 := themed (theme_str (complement p1)) t1 p1).
  assert (Hc1 : complement p1 = if marker p then dark else light).
  { unfold p1. rewrite themed_complement. unfold complement. by destruct (marker p). }
  assert (Hm1 : marker p1 = negb (marker p)).
  { unfold p1. rewrite themed_marker. unfold complement. by destruct (marker p). }
  assert (Hm2 : marker p2 = marker p).
  { unfold p2. rewrite themed_marker, Hc1. by destruct (marker p). }
  exists p, p1, p2.
  split; [exact Hp|].
  split; [exact (toggleTheme_themed p t txt Ht Hi)|].
  split; [exact (toggleTheme_themed p1 t1 txt1 Ht1 Hi1)|].
  split; [exact Hm1|]. split; [exact Hm2|].
  split.
  { destruct Hrun as (_ & Hs & _). unfold synced in Hs. rewrite Hs.
    unfold p2. rewrite themed_iconText, Hc1. by destruct (marker p). }
  split; [rewrite toggleTheme_setTheme; by rewrite complement_str|].
  split; [rewrite toggleTheme_setTheme; by rewrite complement_str|].
  split; [exact Hc1|].
  split.
  { unfold p1. rewrite themed_iconText. unfold complement. by destruct (marker p). }
  split; [apply themed_stored|]. split; [apply themed_stored|].
  split; [apply themed_effects|].
  unfold p2. rewrite themed_effects. reflexivity.
Qed.

Lemma toggleTheme_involution_witness :
  ready firstVisit = true ∧
  ∃ p p1 p2,
    (iife;; run [Click; SystemChange true]) firstVisit = Normal () p ∧
    toggleTheme p = Normal () p1 ∧
    toggleTheme p1 = Normal () p2 ∧
    marker p2 = marker p ∧
    iconText p2 = iconText p ∧
    stored p1 = Some (theme_str (complement p)).
Proof.
  split; [reflexivity|].
  destruct (toggleTheme_involution firstVisit [Click; SystemChange true] eq_refl)
    as (p & p1 & p2 & H0 & H1 & H2 & _ & H4 & H5 & _ & _ & _ & _ & H10 & _).
  exists p, p1, p2. repeat split; assumption.
Defined.

(** ** The media-query listener *)

(** C4, as the code has it: the listener calls [setTheme] exactly when the
    ['theme'] entry is absent or the empty string, and does nothing when a
    non-empty string is stored.  After a click on the toggle has stored a
    theme, and whatever events follow that do not store the empty string, a
    change of the system preference completes normally and leaves the marker,
    the icon, the store and the effects log unchanged. *)
Theorem systemChange_guard (p0 : Page) (evs1 evs2 : list Event) (b : bool) :
  ready p0 = true →
  forallb benign evs2 = true →
  (∀ q, stored q = None ∨ stored q = Some "" →
        systemChange b q = setTheme (if b then "dark" else "light") q) ∧
  (∀ q s, stored q = Some s → s ≠ "" → systemChange b q = Normal () q) ∧
  ∃ p p',
    (iife;; run evs1;; step Click;; run evs2) p0 = Normal () p ∧
    step (SystemChange b) p = Normal () p' ∧
    marker p' = marker p ∧
    iconText p' = iconText p ∧
    stored p' = stored p ∧
    effects p' = effects p.
Proof.
  intros Hr Hb. split; [|split].
  - intros q Hq. apply systemChange_open, truthy_false, Hq.
  - intros q s Hs Hne. apply systemChange_closed. unfold governed.
    apply truthy_true. eauto.
  - destruct (reachable_running p0 evs1 Hr) as (q1 & Hq1 & Hrun1 & _).
    destruct (step_running Click q1 Hrun1) as (q2 & Hq2 & Hrun2 & _ & Hg2).
    destruct (run_running evs2 q2 Hrun2) as (p & Hp & Hrun & Hg).
    exists p, (with_prefersDark b p).
    split.
    { unfold mbind, M_bind in Hq1 |- *.
      destruct (iife p0) as [[] q0|]; [|discriminate].
      rewrite Hq1. unfold mbind, M_bind in Hq2. rewrite Hq2. exact Hp. }
    split; [|by repeat split].
    cbn [step]. apply dispatch_closed. by apply Hg, Hg2.
Qed.

Lemma systemChange_guard_witness :
  ready firstVisit = true ∧
  forallb benign [ManagerSetTheme "light"; Click] = true ∧
  ∃ p p',
    (iife;; run [SystemChange true];; step Click;;
     run [ManagerSetTheme "light"; Click]) firstVisit = Normal () p ∧
    step (SystemChange false) p = Normal () p' ∧
    marker p' = marker p ∧
    iconText p' = iconText p.
Proof.
  split; [reflexivity|]. split; [reflexivity|].
  destruct (systemChange_guard firstVisit [SystemChange true]
              [ManagerSetTheme "light"; Click] false eq_refl eq_refl)
    as (_ & _ & p & p' & H1 & H2 & H3 & H4 & _).
  exists p, p'. repeat split; assumption.
Defined.

(** C4 as stated fails: after a click on the toggle and
    [window.themeManager.setTheme('')], the ['theme'] entry is present (it
    holds the empty string), and yet a change of the system preference to
    dark runs [setTheme]: the marker and the icon change. *)
Lemma systemChange_fires_on_empty_string :
  (iife;; run [Click; ManagerSetTheme ""]) firstVisit = Normal () afterEmptyString ∧
  stored afterEmptyString = Some "" ∧
  marker afterEmptyString = false ∧
  iconText afterEmptyString = Some moon ∧
  ∃ p',
    step (SystemChange true) afterEmptyString = Normal () p' ∧
    marker p' = true ∧
    iconText p' = Some sun ∧
    effects p' =
      effects afterEmptyString ++
      [ClassListAdd "dark-mode"; SetTextContent sun; StorageSetItem "theme" "dark"].
Proof.
  split; [vm_compute; reflexivity|].
  split; [vm_compute; reflexivity|].
  split; [vm_compute; reflexivity|].
  split; [vm_compute; reflexivity|].
  eexists. split; [vm_compute; reflexivity|].
  repeat split; vm_compute; reflexivity.
Qed.

(** ** Initialization and the stored preference *)

(** C1 on a first visit: nothing is stored before the script runs, no toggle
    and no [themeManager.setTheme] call has happened, and the initialization
    itself has stored ['light'] under ['theme']. *)
Theorem iife_stores_theme :
  stored firstVisit = None ∧
  ∃ p',
    iife firstVisit = Normal () p' ∧
    stored p' = Some "light" ∧
    effects p' =
      [ ClassListRemove "dark-mode"; SetTextContent moon;
        StorageSetItem "theme" "light";
        AddClickListener toggleThemeListener;
        AddChangeListener systemChangeListener;
        ExportThemeManager ].
Proof.
  split; [reflexivity|].
  eexists. split; [vm_compute; reflexivity|].
  split; vm_compute; reflexivity.
Qed.

(** C5 on a first visit with a system that prefers dark: initialization
    applies dark (marker set, sun on the icon) but also stores ['dark'], so
    when the system preference then changes to light the listener does
    nothing: the marker stays set and the icon keeps the sun. *)
Theorem systemChange_after_iife_ignored :
  stored firstVisitDark = None ∧
  iife firstVisitDark = Normal () loadedDark ∧
  marker loadedDark = true ∧
  iconText loadedDark = Some sun ∧
  stored loadedDark = Some "dark" ∧
  step (SystemChange false) loadedDark =
    Normal () (with_prefersDark false loadedDark) ∧
  marker (with_prefersDark false loadedDark) = true ∧
  iconText (with_prefersDark false loadedDark) = Some sun.
Proof.
  repeat split; vm_compute; reflexivity.
Qed.

(** Behind C1 and C5: once the script has run, a truthy string is stored, and
    it stays so under every event that does not store the empty string; the
    state "initialized, nothing stored" is not reached. *)
Lemma stored_after_iife p0 evs :
  ready p0 = true → forallb benign evs = true →
  ∃ p s, (iife;; run evs) p0 = Normal () p ∧ stored p = Some s ∧ s ≠ "".
Proof.
  intros Hr Hb. destruct (reachable_running p0 evs Hr) as (p & Hp & _ & Hg).
  destruct (proj1 (truthy_true _) (Hg Hb)) as (s & Hs & Hne).
  by exists p, s.
Qed.

(** * Further properties of the script *)

(** ** What initialization does *)

Lemma iife_ready p t txt :
  themeToggle p = Some t → icon t = Some txt →
  iife p = Normal () (registered (themed (preferred p) t p)).
Proof.
  intros Ht Hi.
  unfold iife, mbind, M_bind, Host.getElementById_themeToggle,
    Host.querySelector_theme_icon.
  rewrite Ht, Hi, getPreferredTheme_run, (setTheme_ready _ _ _ _ Ht Hi).
  reflexivity.
Qed.

Lemma callbackCalls_app es es' :
  callbackCalls (es ++ es') = callbackCalls es ++ callbackCalls es'.
Proof.
  induction es as [|e es IH]; [reflexivity|].
  destruct e; simpl; rewrite ?IH; reflexivity.
Qed.

(** X1: on a page with the toggle and its icon, and with
    [window.onThemeChange] not a function (the test on line 45 fails, so no
    code of the host runs during the load), the script completes normally and
    never warns.  It applies the preferred theme once (class, icon text,
    store write, no callback call), and only then registers the click
    listener, registers the media-query listener and exports
    [window.themeManager], each exactly once and in that order. *)
Theorem iife_installs (p : Page) :
  ready p = true →
  String.eqb (Js.typeof (onThemeChange p)) "function" = false →
  ∃ p',
    iife p = Normal () p' ∧
    effects p' =
      effects p ++
      [ if String.eqb (preferred p) "dark"
        then ClassListAdd "dark-mode" else ClassListRemove "dark-mode";
        SetTextContent (if String.eqb (preferred p) "dark" then sun else moon);
        StorageSetItem "theme" (preferred p);
        AddClickListener toggleThemeListener;
        AddChangeListener systemChangeListener;
        ExportThemeManager ] ∧
    registeredClicks p' = registeredClicks p ++ [toggleThemeListener] ∧
    changeListeners p' = changeListeners p ++ [systemChangeListener] ∧
    themeManager p' = true.
Proof.
  intros Hr Hty. destruct (ready_inv p Hr) as (t & txt & Ht & Hi).
  exists (registered (themed (preferred p) t p)).
  split; [exact (iife_ready p t txt Ht Hi)|].
  split.
  { clear Hr Ht Hi. destruct p as [st cl tg pd chl cb tm ef].
    cbn [onThemeChange] in Hty.
    unfold registered, themed. run_script. rewrite Hty.
    rewrite <- ?app_assoc. reflexivity. }
  unfold registeredClicks. rewrite Ht. by repeat split.
Qed.

Lemma iife_installs_witness :
  ready firstVisit = true ∧
  String.eqb (Js.typeof (onThemeChange firstVisit)) "function" = false ∧
  ∃ p',
    iife firstVisit = Normal () p' ∧
    effects p' =
      [ ClassListRemove "dark-mode"; SetTextContent moon;
        StorageSetItem "theme" "light";
        AddClickListener toggleThemeListener;
        AddChangeListener systemChangeListener;
        ExportThemeManager ] ∧
    themeManager p' = true.
Proof.
  split; [reflexivity|]. split; [reflexivity|].
  destruct (iife_installs firstVisit eq_refl eq_refl) as (p' & H1 & H2 & _ & _ & H5).
  exists p'. split; [exact H1|]. split; [exact H2 | exact H5].
Defined.

(** ** What [setTheme] leaves alone *)

(** X2: [setTheme] touches one storage key and one class.  Every other key of
    the store and every other class of the body is as before, and so are the
    registered listeners, the media query, the callback and the export. *)
Theorem setTheme_frame (theme : string) (p : Page) :
  ready p = true →
  ∃ p',
    setTheme theme p = Normal () p' ∧
    (∀ k, k ≠ "theme" → localStorage p' !! k = localStorage p !! k) ∧
    (∀ c, c ≠ "dark-mode" → c ∈ classList p' ↔ c ∈ classList p) ∧
    registeredClicks p' = registeredClicks p ∧
    changeListeners p' = changeListeners p ∧
    prefersDark p' = prefersDark p ∧
    onThemeChange p' = onThemeChange p ∧
    themeManager p' = themeManager p.
Proof.
  intros Hr. destruct (ready_inv p Hr) as (t & txt & Ht & Hi).
  exists (themed theme t p).
  split; [exact (setTheme_ready _ _ _ _ Ht Hi)|].
  split; [|split].
  - intros k Hk. unfold themed. cbn [localStorage]. by rewrite lookup_insert_ne.
  - intros c Hc. unfold themed. cbn [classList].
    destruct (String.eqb theme "dark"); set_solver.
  - unfold registeredClicks. rewrite Ht. by repeat split.
Qed.

Lemma setTheme_frame_witness :
  ready busyPage = true ∧
  ∃ p',
    setTheme "light" busyPage = Normal () p' ∧
    localStorage p' !! "lang" = Some "en" ∧
    "wide" ∈ classList p'.
Proof.
  split; [reflexivity|].
  destruct (setTheme_frame "light" busyPage eq_refl) as (p' & H1 & H2 & H3 & _).
  exists p'. split; [exact H1|].
  split.
  - rewrite H2; [reflexivity | discriminate].
  - apply H3; [discriminate | vm_compute; reflexivity].
Defined.

(** ** Page loads *)

Lemma registered_observations q :
  marker (registered q) = marker q ∧ iconText (registered q) = iconText q ∧
  localStorage (registered q) = localStorage q.
Proof.
  destruct q as [st cl [[ic ls]|] pd chl cb tm ef];
    split; [reflexivity | split; reflexivity | reflexivity | split; reflexivity].
Qed.

(** X3: a theme set on one page load is the theme of the next load.  If a
    non-empty string was passed to [setTheme] and the store it left is the
    store of a freshly loaded page, the script applies that string there
    (dark exactly for ['dark']), whatever the new page's classes, icon text
    and system preference are, and leaves the store as it found it. *)
Theorem setTheme_survives_reload (theme : string) (p q : Page) :
  ready p = true →
  ready q = true →
  theme ≠ "" →
  localStorage q = localStorage (page_of (setTheme theme p)) →
  ∃ q',
    iife q = Normal () q' ∧
    marker q' = String.eqb theme "dark" ∧
    iconText q' = Some (if String.eqb theme "dark" then sun else moon) ∧
    localStorage q' = localStorage q.
Proof.
  intros Hp Hq Hne Hst.
  destruct (ready_inv p Hp) as (t & txt & Ht & Hi).
  destruct (ready_inv q Hq) as (u & utxt & Hu & Hui).
  rewrite (setTheme_ready _ _ _ _ Ht Hi) in Hst. cbn [page_of] in Hst.
  assert (Hs : stored q = Some theme).
  { unfold stored. rewrite Hst. apply (themed_stored theme t p). }
  assert (Hpref : preferred q = theme).
  { unfold preferred. rewrite Hs. by apply String.eqb_neq in Hne as ->. }
  exists (registered (themed (preferred q) u q)).
  split; [exact (iife_ready q u utxt Hu Hui)|].
  destruct (registered_observations (themed (preferred q) u q)) as (-> & -> & ->).
  rewrite themed_marker, themed_iconText, Hpref.
  split; [reflexivity|]. split; [reflexivity|].
  unfold themed. cbn [localStorage]. by apply insert_id.
Qed.

Lemma setTheme_survives_reload_witness :
  ready busyPage = true ∧ ready firstVisit = true ∧ "dark" ≠ "" ∧
  ∃ q',
    iife (with_localStorage (λ _, localStorage (page_of (setTheme "dark" busyPage)))
                            firstVisit) = Normal () q' ∧
    marker q' = true ∧ iconText q' = Some sun.
Proof.
  split; [reflexivity|]. split; [reflexivity|]. split; [discriminate|].
  destruct (setTheme_survives_reload "dark" busyPage
              (with_localStorage (λ _, localStorage (page_of (setTheme "dark" busyPage)))
                                 firstVisit)
              eq_refl eq_refl ltac:(discriminate) eq_refl)
    as (q' & H1 & H2 & H3 & _).
  exists q'. split; [exact H1|]. split; [exact H2 | exact H3].
Defined.

(** X4: on a load with nothing stored (or the empty string stored) the
    script follows the system: the marker is set iff the system prefers
    dark, and that theme is written to the store. *)
Theorem iife_follows_system (p : Page) :
  ready p = true →
  stored p = None ∨ stored p = Some "" →
  ∃ p',
    iife p = Normal () p' ∧
    marker p' = prefersDark p ∧
    iconText p' = Some (if prefersDark p then sun else moon) ∧
    stored p' = Some (if prefersDark p then "dark" else "light").
Proof.
  intros Hr Hs. destruct (ready_inv p Hr) as (t & txt & Ht & Hi).
  assert (Hpref : preferred p = if prefersDark p then "dark" else "light").
  { unfold preferred, systemTheme. by destruct Hs as [-> | ->]. }
  exists (registered (themed (preferred p) t p)).
  split; [exact (iife_ready p t txt Ht Hi)|].
  destruct (registered_observations (themed (preferred p) t p)) as (Hm & Hic & Hl).
  unfold stored. rewrite Hm, Hic, Hl. fold (stored (themed (preferred p) t p)).
  rewrite themed_marker, themed_iconText, themed_stored, Hpref.
  by destruct (prefersDark p).
Qed.

Lemma iife_follows_system_witness :
  ready firstVisitDark = true ∧
  (stored firstVisitDark = None ∨ stored firstVisitDark = Some "") ∧
  ∃ p', iife firstVisitDark = Normal () p' ∧ marker p' = true ∧
        stored p' = Some "dark".
Proof.
  split; [reflexivity|].
  assert (H : stored firstVisitDark = None ∨ stored firstVisitDark = Some "")
    by (left; reflexivity).
  split; [exact H|].
  destruct (iife_follows_system firstVisitDark eq_refl H) as (p' & H1 & H2 & _ & H4).
  exists p'. split; [exact H1|]. split; [exact H2 | exact H4].
Defined.

(** X5: [getPreferredTheme] never returns the empty string, so the value the
    initialization stores always closes the media-query listener's guard. *)
Theorem getPreferredTheme_nonempty (p : Page) :
  ∃ r, getPreferredTheme p = Normal r p ∧ r ≠ "" ∧ Js.truthy (Some r) = true.
Proof.
  exists (preferred p). split; [apply getPreferredTheme_run|].
  split; [apply preferred_nonempty|].
  apply truthy_true. exists (preferred p). split; [reflexivity|].
  apply preferred_nonempty.
Qed.

(** ** The media-query listener, once more *)

(** X6: the listener disarms itself.  When nothing (or the empty string) is
    stored it applies the theme of the event and stores it; from then on a
    further change event, whatever it reports, does nothing at all. *)
Theorem systemChange_fires_once (b b' : bool) (p : Page) :
  ready p = true →
  stored p = None ∨ stored p = Some "" →
  ∃ p1,
    systemChange b p = Normal () p1 ∧
    marker p1 = b ∧
    stored p1 = Some (if b then "dark" else "light") ∧
    systemChange b' p1 = Normal () p1.
Proof.
  intros Hr Hs. destruct (ready_inv p Hr) as (t & txt & Ht & Hi).
  exists (themed (if b then "dark" else "light") t p).
  split.
  { rewrite systemChange_open; [exact (setTheme_ready _ _ _ _ Ht Hi)|].
    by apply truthy_false. }
  split; [rewrite themed_marker; by destruct b|].
  split; [apply themed_stored|].
  apply systemChange_closed, themed_governed. by destruct b.
Qed.

Lemma systemChange_fires_once_witness :
  ready firstVisit = true ∧
  (stored firstVisit = None ∨ stored firstVisit = Some "") ∧
  ∃ p1,
    systemChange true firstVisit = Normal () p1 ∧
    marker p1 = true ∧
    systemChange false p1 = Normal () p1.
Proof.
  split; [reflexivity|].
  assert (H : stored firstVisit = None ∨ stored firstVisit = Some "")
    by (left; reflexivity).
  split; [exact H|].
  destruct (systemChange_fires_once true false firstVisit eq_refl H)
    as (p1 & H1 & H2 & _ & H4).
  exists p1. split; [exact H1|]. split; [exact H2 | exact H4].
Defined.

(** ** [toggleTheme], once more *)

(** X7: [toggleTheme] goes by the marker alone.  On a page with the required
    elements it flips the marker and stores the complement of what was
    displayed, whatever the store held before, so that afterwards store, icon
    and [getTheme] agree. *)
Theorem toggleTheme_stores_complement (p : Page) :
  ready p = true →
  ∃ p',
    toggleTheme p = Normal () p' ∧
    marker p' = negb (marker p) ∧
    stored p' = Some (if marker p then "light" else "dark") ∧
    iconText p' = Some (if marker p then moon else sun) ∧
    getTheme p' = Normal (if marker p then "light" else "dark") p'.
Proof.
  intros Hr. destruct (ready_inv p Hr) as (t & txt & Ht & Hi).
  exists (themed (if marker p then "light" else "dark") t p).
  split; [rewrite toggleTheme_setTheme; exact (setTheme_ready _ _ _ _ Ht Hi)|].
  rewrite getTheme_marker, themed_marker, themed_iconText, themed_stored.
  by destruct (marker p).
Qed.

Lemma toggleTheme_stores_complement_witness :
  ready blueVisit = true ∧
  ∃ p',
    toggleTheme blueVisit = Normal () p' ∧
    marker p' = true ∧
    stored p' = Some "dark".
Proof.
  split; [reflexivity|].
  destruct (toggleTheme_stores_complement blueVisit eq_refl)
    as (p' & H1 & H2 & H3 & _).
  exists p'. split; [exact H1|]. split; [exact H2 | exact H3].
Defined.

(** ** Invariants over whole runs *)

Section Preservation.
Variable I : Page → Prop.
Hypothesis I_themed :
  ∀ theme t p, themeToggle p = Some t → I p → I (themed theme t p).
Hypothesis I_prefersDark : ∀ b p, I p → I (with_prefersDark b p).

Lemma setTheme_preserves theme p :
  running p → I p →
  ∃ p', setTheme theme p = Normal () p' ∧ running p' ∧ I p'.
Proof.
  intros Hrun HI. destruct (setTheme_running theme p Hrun) as (t & Ht & Hs & Hr).
  eexists. split; [exact Hs|]. split; [exact Hr|]. by apply I_themed.
Qed.

Lemma dispatch_preserves {L} (handler : L → M unit) (ls : list L) p :
  (∀ l q, running q → I q →
          ∃ q', handler l q = Normal () q' ∧ running q' ∧ I q') →
  running p → I p →
  ∃ p', dispatch handler ls p = Normal () p' ∧ running p' ∧ I p'.
Proof.
  intros Hh. revert p. induction ls as [|l ls IH]; intros p Hrun HI.
  - by exists p.
  - destruct (Hh l p Hrun HI) as (q & Hq & Hrq & HIq).
    destruct (IH q Hrq HIq) as (p' & Hp' & Hrp' & HIp').
    exists p'. cbn [dispatch]. unfold mbind, M_bind. by rewrite Hq.
Qed.

Lemma step_preserves ev p :
  running p → I p →
  ∃ p', step ev p = Normal () p' ∧ running p' ∧ I p'.
Proof.
  intros Hrun HI. destruct ev as [|b|theme|]; cbn [step].
  - destruct Hrun as (Hr & Hs & Hm & t & Ht & Hl). rewrite Ht.
    apply dispatch_preserves; [|by repeat split; eauto|exact HI].
    intros [] q Hq HIq. cbn [runClick]. rewrite toggleTheme_setTheme.
    by apply setTheme_preserves.
  - apply dispatch_preserves;
      [|by apply with_prefersDark_running|by apply I_prefersDark].
    intros [] q Hq HIq. cbn [runChange].
    destruct (Js.truthy (stored q)) eqn:E.
    + exists q. by rewrite systemChange_closed.
    + rewrite (systemChange_open _ _ E). by apply setTheme_preserves.
  - rewrite (proj1 (proj2 (proj2 Hrun))). by apply setTheme_preserves.
  - rewrite (proj1 (proj2 (proj2 Hrun))), toggleTheme_setTheme.
    by apply setTheme_preserves.
Qed.

Lemma run_preserves evs p :
  running p → I p →
  ∃ p', run evs p = Normal () p' ∧ running p' ∧ I p'.
Proof.
  revert p. induction evs as [|ev evs IH]; intros p Hrun HI.
  - by exists p.
  - destruct (step_preserves ev p Hrun HI) as (q & Hq & Hrq & HIq).
    destruct (IH q Hrq HIq) as (p' & Hp' & Hrp' & HIp').
    exists p'. cbn [run]. unfold mbind, M_bind. by rewrite Hq.
Qed.

End Preservation.

Lemma installed_running theme t q : running (registered (themed theme t q)).
Proof.
  split; [reflexivity|]. split; [exact (themed_synced theme t q)|].
  split; [reflexivity|]. eexists. split; [reflexivity|].
  cbn [clickListeners]. by destruct (clickListeners t).
Qed.


(** An invariant that holds once the script has run holds after any events. *)
Lemma reachable_preserves (I : Page → Prop) p0 evs :
  (∀ theme t p, themeToggle p = Some t → I p → I (themed theme t p)) →
  (∀ b p, I p → I (with_prefersDark b p)) →
  ready p0 = true →
  (∀ t, themeToggle p0 = Some t → I (registered (themed (preferred p0) t p0))) →
  ∃ p, (iife;; run evs) p0 = Normal () p ∧ running p ∧ I p.
Proof.
  intros H1 H2 Hr H0. destruct (ready_inv p0 Hr) as (t & txt & Ht & Hi).
  destruct (run_preserves I H1 H2 evs (registered (themed (preferred p0) t p0)))
    as (p & Hp & Hrun & HI); [apply installed_running | by apply H0 |].
  exists p. unfold mbind, M_bind. rewrite (iife_ready p0 t txt Ht Hi).
  split; [exact Hp|]. split; assumption.
Qed.

Lemma themed_agrees theme t p : agrees (themed theme t p).
Proof.
  unfold agrees. rewrite themed_marker, themed_stored.
  destruct (String.eqb_spec theme "dark"); naive_solver.
Qed.

(** X8: display and store never drift apart.  In every state reached by
    running the script and then any events (clicks, system changes,
    [themeManager] calls with any string), the marker is set exactly when the
    stored value is ['dark'], and the icon shows the glyph of the marker. *)
Theorem display_agrees_with_store (p0 : Page) (evs : list Event) :
  ready p0 = true →
  ∃ p,
    (iife;; run evs) p0 = Normal () p ∧
    (marker p = true ↔ stored p = Some "dark") ∧
    iconText p = Some (if marker p then sun else moon).
Proof.
  intros Hr.
  destruct (reachable_preserves agrees p0 evs) as (p & Hp & Hrun & Ha).
  - intros theme t p _ _. apply themed_agrees.
  - intros b p H. exact H.
  - exact Hr.
  - intros t _. unfold agrees, stored.
    destruct (registered_observations (themed (preferred p0) t p0)) as (-> & _ & ->).
    apply themed_agrees.
  - exists p. split; [exact Hp|]. split; [exact Ha|]. exact (proj1 (proj2 Hrun)).
Qed.

Lemma display_agrees_with_store_witness :
  ready blueVisit = true ∧
  ∃ p,
    (iife;; run [ManagerSetTheme ""; SystemChange true; Click]) blueVisit
      = Normal () p ∧
    (marker p = true ↔ stored p = Some "dark").
Proof.
  split; [reflexivity|].
  destruct (display_agrees_with_store blueVisit
              [ManagerSetTheme ""; SystemChange true; Click] eq_refl)
    as (p & H1 & H2 & _).
  exists p. split; [exact H1 | exact H2].
Defined.

(** X9: after initialization the media-query listener is inert.  From any
    page on which the script ran, and after any events that do not store the
    empty string (no click is needed), a change of the system preference
    completes normally and changes neither marker, icon, store nor the
    effects log; only the media query itself has the new value. *)
Theorem systemChange_inert_after_iife (p0 : Page) (evs : list Event) (b : bool) :
  ready p0 = true →
  forallb benign evs = true →
  ∃ p p',
    (iife;; run evs) p0 = Normal () p ∧
    step (SystemChange b) p = Normal () p' ∧
    marker p' = marker p ∧
    iconText p' = iconText p ∧
    localStorage p' = localStorage p ∧
    effects p' = effects p ∧
    prefersDark p' = b.
Proof.
  intros Hr Hb. destruct (reachable_running p0 evs Hr) as (p & Hp & _ & Hg).
  exists p, (with_prefersDark b p). split; [exact Hp|].
  split; [|by repeat split].
  cbn [step]. apply dispatch_closed. by apply Hg.
Qed.

Lemma systemChange_inert_after_iife_witness :
  ready firstVisitDark = true ∧
  forallb benign [] = true ∧
  ∃ p p',
    (iife;; run []) firstVisitDark = Normal () p ∧
    step (SystemChange false) p = Normal () p' ∧
    marker p' = marker p ∧
    prefersDark p' = false.
Proof.
  split; [reflexivity|]. split; [reflexivity|].
  destruct (systemChange_inert_after_iife firstVisitDark [] false eq_refl eq_refl)
    as (p & p' & H1 & H2 & H3 & _ & _ & _ & H7).
  exists p, p'. repeat split; assumption.
Defined.

(** ** Clicks *)







(** ** The host callback over a run *)

Lemma themed_notified theme t p f :
  onThemeChange p = Js.Function f → notified (themed theme t p).
Proof.
  intros Hf. exists f, theme. split; [exact Hf|]. split; [apply themed_stored|].
  unfold themed. cbn [effects]. rewrite typeof_function, Hf, !app_assoc.
  rewrite callbackCalls_app. cbn [callbackCalls]. apply last_snoc.
Qed.

Lemma registered_notified q : notified q → notified (registered q).
Proof.
  intros (f & s & Hf & Hs & Hl). exists f, s.
  destruct q as [st cl [[ic ls]|] pd chl cb tm ef]; [|by repeat split].
  split; [exact Hf|]. split; [exact Hs|].
  unfold registered. run_script. cbn [effects] in Hl.
  rewrite !callbackCalls_app. cbn [callbackCalls]. by rewrite !app_nil_r.
Qed.

(** X12: the host is never left with a stale theme.  When
    [window.onThemeChange] is a function, then after the script has run and
    after any events the last call the callback received carried, as its only
    argument, the string that is now stored under ['theme']. *)
Theorem callback_has_stored_theme (p0 : Page) (f : string) (evs : list Event) :
  ready p0 = true →
  onThemeChange p0 = Js.Function f →
  ∃ p s,
    (iife;; run evs) p0 = Normal () p ∧
    stored p = Some s ∧
    last (callbackCalls (effects p)) = Some [s].
Proof.
  intros Hr Hf.
  destruct (reachable_preserves notified p0 evs) as (p & Hp & _ & HI).
  - intros theme t p _ (g & _ & Hg & _). by apply themed_notified with g.
  - intros b p H. exact H.
  - exact Hr.
  - intros t _. by apply registered_notified, themed_notified with f.
  - destruct HI as (_ & s & _ & Hs & Hl). by exists p, s.
Qed.

Lemma callback_has_stored_theme_witness :
  ready withCallback = true ∧
  onThemeChange withCallback = Js.Function "redraw" ∧
  ∃ p s,
    (iife;; run [Click; SystemChange true; ManagerSetTheme "blue"]) withCallback
      = Normal () p ∧
    stored p = Some s ∧
    last (callbackCalls (effects p)) = Some [s].
Proof.
  split; [reflexivity|]. split; [reflexivity|].
  destruct (callback_has_stored_theme withCallback "redraw"
              [Click; SystemChange true; ManagerSetTheme "blue"] eq_refl eq_refl)
    as (p & s & H1 & H2 & H3).
  exists p, s. repeat split; assumption.
Defined.
